(** * Project Manager: gem metadata record and the repository-add dialog

    A shallow embedding of

    - [Code/Tools/ProjectManager/Source/GemCatalog/GemInfo.h]
      (the [GemInfo] record, its flag enumerations and default member
      initialisers), and
    - [Code/Tools/ProjectManager/Source/GemRepo/GemRepoAddDialog.cpp]
      (the constructor's two cache-file blocks, the two selection slots
      and [GetRepoPath]).

    Strings ([QString], [QByteArray]) are [string]; [QStringList] is
    [list string]; a [QFlags] value is the [Z] it wraps, combined with
    [Z.lor] and tested with [Z.land]. *)

From Stdlib Require Import String Ascii List ZArith Bool Lia.
Import ListNotations.

Set Warnings "-register-all".

Local Open Scope string_scope.
Local Open Scope Z_scope.

(* ===================================================================== *)
(** ** GemInfo.h                                                          *)
(* ===================================================================== *)

Module GemInfo.

(** [enum Platform]: the five flags.  The sixth enumerator,
    [NumPlatforms = 5], is a count and not a flag; it is kept apart. *)
Inductive Platform : Set :=
| Android
| iOS
| Linux
| macOS
| Windows.

(** The bit position [k] of the enumerator's initialiser [1 << k]. *)
Definition Platform_bit (p : Platform) : Z :=
  match p with
  | Android => 0
  | iOS => 1
  | Linux => 2
  | macOS => 3
  | Windows => 4
  end.

Definition Platform_value (p : Platform) : Z := Z.shiftl 1 (Platform_bit p).

Definition NumPlatforms : Z := 5.

(** [Q_DECLARE_FLAGS(Platforms, Platform)] *)
Definition Platforms : Set := Z.

Definition all_platforms : list Platform := [Android; iOS; Linux; macOS; Windows].

(** [enum Type] *)
Inductive GemType : Set :=
| Asset
| Code
| Tool.

Definition GemType_value (t : GemType) : Z :=
  match t with
  | Asset => Z.shiftl 1 0
  | Code => Z.shiftl 1 1
  | Tool => Z.shiftl 1 2
  end.

Definition NumTypes : Z := 3.

Definition Types : Set := Z.

(** [enum GemOrigin] *)
Inductive GemOrigin : Set :=
| Open3DEngine
| Local
| Remote.

Definition GemOrigin_value (o : GemOrigin) : Z :=
  match o with
  | Open3DEngine => Z.shiftl 1 0
  | Local => Z.shiftl 1 1
  | Remote => Z.shiftl 1 2
  end.

Definition NumGemOrigins : Z := 3.

(** [enum DownloadStatus] *)
Inductive DownloadStatus : Set :=
| UnknownDownloadStatus
| NotDownloaded
| Downloading
| DownloadSuccessful
| DownloadFailed
| Downloaded.

Definition DownloadStatus_value (s : DownloadStatus) : Z :=
  match s with
  | UnknownDownloadStatus => -1
  | NotDownloaded => 0
  | Downloading => 1
  | DownloadSuccessful => 2
  | DownloadFailed => 3
  | Downloaded => 4
  end.

(** A [QPixmap] member; the header only default-constructs it. *)
Inductive QPixmap : Set :=
| NullPixmap.

(** [class GemInfo]: the data members, in declaration order. *)
Record GemInfo : Set := mkGemInfo {
  m_path : string;
  m_name : string;
  m_displayName : string;
  m_origin : string;
  m_gemOrigin : GemOrigin;
  m_originURL : string;
  m_iconPath : string;
  m_iconPreviewPath : string;
  m_iconPixMap : QPixmap;
  m_iconUri : string;
  m_iconUriPreviewPath : string;
  m_iconUriPixMap : QPixmap;
  m_isAdded : bool;
  m_isEngineGem : bool;
  m_isProjectGem : bool;
  m_summary : string;
  m_platforms : Platforms;
  m_types : Types;
  m_downloadStatus : DownloadStatus;
  m_features : list string;
  m_requirement : string;
  m_licenseText : string;
  m_licenseLink : string;
  m_directoryLink : string;
  m_documentationLink : string;
  m_repoUri : string;
  m_version : string;
  m_lastUpdatedDate : string;
  m_binarySizeInKB : Z;
  m_dependencies : list string;
  m_compatibleEngines : list string;
  m_incompatibleEngineDependencies : list string;
  m_incompatibleGemDependencies : list string;
  m_downloadSourceUri : string;
  m_sourceControlUri : string;
  m_sourceControlRef : string
}.

(** [GemInfo() = default]: every member takes its default member
    initialiser; a member without one is default-constructed (an empty
    [QString] or [QStringList], a [QFlags] with no bit set). *)
Definition GemInfo_default : GemInfo := {|
  m_path := "";
  m_name := "Unknown Gem Name";
  m_displayName := "";
  m_origin := "Unknown Creator";
  m_gemOrigin := Local;
  m_originURL := "";
  m_iconPath := "";
  m_iconPreviewPath := "";
  m_iconPixMap := NullPixmap;
  m_iconUri := "";
  m_iconUriPreviewPath := "";
  m_iconUriPixMap := NullPixmap;
  m_isAdded := false;
  m_isEngineGem := false;
  m_isProjectGem := false;
  m_summary := "No summary provided.";
  m_platforms := 0;
  m_types := 0;
  m_downloadStatus := UnknownDownloadStatus;
  m_features := [];
  m_requirement := "";
  m_licenseText := "";
  m_licenseLink := "";
  m_directoryLink := "";
  m_documentationLink := "";
  m_repoUri := "";
  m_version := "Unknown Version";
  m_lastUpdatedDate := "Unknown Date";
  m_binarySizeInKB := 0;
  m_dependencies := [];
  m_compatibleEngines := [];
  m_incompatibleEngineDependencies := [];
  m_incompatibleGemDependencies := [];
  m_downloadSourceUri := "";
  m_sourceControlUri := "";
  m_sourceControlRef := ""
|}.

(** [QString::isEmpty] *)
Definition isEmpty (s : string) : bool :=
  match s with
  | EmptyString => true
  | String _ _ => false
  end.

(** The member functions below are declared in the header; their
    bodies live in [GemInfo.cpp]. *)

(** Modelled from the spec: the body of [GemInfo::IsPlatformSupported]
    (GemInfo.cpp).  "true iff the corresponding bit is set in the
    instance's platform set": the flag test [m_platforms & platform]. *)
Definition IsPlatformSupported (g : GemInfo) (platform : Platform) : bool :=
  negb (Z.land (m_platforms g) (Platform_value platform) =? 0).

(** Modelled from the spec: the body of [GemInfo::IsCompatible]
    (GemInfo.cpp).  "true iff none of the incompatible-engine/gem-dependency
    lists are non-empty". *)
Definition IsCompatible (g : GemInfo) : bool :=
  match m_incompatibleEngineDependencies g, m_incompatibleGemDependencies g with
  | [], [] => true
  | _, _ => false
  end.

Section PlatformLabels.

(** Modelled from the spec: the label table of
    [GemInfo::GetPlatformString] (GemInfo.cpp), "canonical
    human-readable label for exactly one platform flag". *)
Variable platformLabel : Platform -> string.

(** Modelled from the spec: the comparison rule of
    [GemInfo::GetPlatformFromString] (GemInfo.cpp), "case-sensitive (or
    case-insensitive, must be consistent with GetPlatformString)". *)
Variable labelMatches : string -> string -> bool.

(** Modelled from the spec: the body of [GemInfo::GetPlatformString]
    (GemInfo.cpp). *)
Definition GetPlatformString (platform : Platform) : string :=
  platformLabel platform.

(** Modelled from the spec: the search of
    [GemInfo::GetPlatformFromString] (GemInfo.cpp), the labels being tried
    in enumerator order. *)
Fixpoint firstMatch (candidates : list Platform) (platformText : string) : Platforms :=
  match candidates with
  | [] => 0
  | p :: rest =>
      if labelMatches (platformLabel p) platformText
      then Platform_value p
      else firstMatch rest platformText
  end.

(** Modelled from the spec: the body of [GemInfo::GetPlatformFromString]
    (GemInfo.cpp).  "the single platform flag matching a ... label, or no
    bits set if unrecognized". *)
Definition GetPlatformFromString (platformText : string) : Platforms :=
  firstMatch all_platforms platformText.

(** Modelled from the spec: the body of
    [GemInfo::GetPlatformsFromStringList] (GemInfo.cpp).  "bitwise union
    of GetPlatformFromString applied to each entry": a loop over the
    list that ors each parsed flag into the running result. *)
Definition GetPlatformsFromStringList (platformStrings : list string) : Platforms :=
  fold_left (fun platforms text => Z.lor platforms (GetPlatformFromString text))
            platformStrings 0.

(** A text is recognised when some platform's label matches it. *)
Definition recognized (platformText : string) : bool :=
  existsb (fun p => labelMatches (platformLabel p) platformText) all_platforms.

End PlatformLabels.

(** The enumerator names as labels, compared as [QString::operator==]
    does. *)
Definition enumeratorLabel (p : Platform) : string :=
  match p with
  | Android => "Android"
  | iOS => "iOS"
  | Linux => "Linux"
  | macOS => "macOS"
  | Windows => "Windows"
  end.

End GemInfo.

(* ===================================================================== *)
(** ** The Qt values the dialog works with                                *)
(* ===================================================================== *)

Module Json.

(** [QByteArray]: the bytes [QFile::readAll] returns. *)
Definition QByteArray : Set := string.

(** [QJsonValue].  The code never looks at a number's value, which is
    carried as its lexeme. *)
Inductive QJsonValue : Set :=
| JUndefined
| JNull
| JBool (b : bool)
| JDouble (lexeme : string)
| JString (s : string)
| JArray (elements : list QJsonValue)
| JObject (members : list (string * QJsonValue)).

Definition QJsonArray : Set := list QJsonValue.
Definition QJsonObject : Set := list (string * QJsonValue).

(** [QJsonDocument]: null (what [fromJson] returns for text that is not
    JSON), or a top-level object or array. *)
Inductive QJsonDocument : Set :=
| NullDocument
| ObjectDocument (o : QJsonObject)
| ArrayDocument (a : QJsonArray).

(** [QJsonDocument::object]: the empty object unless the document
    holds an object. *)
Definition object (document : QJsonDocument) : QJsonObject :=
  match document with
  | ObjectDocument o => o
  | NullDocument | ArrayDocument _ => []
  end.

(** [QJsonObject::contains] *)
Definition contains (o : QJsonObject) (key : string) : bool :=
  existsb (fun m => String.eqb (fst m) key) o.

(** [QJsonObject::operator[]]: the member's value, [Undefined] when
    there is none. *)
Fixpoint value (o : QJsonObject) (key : string) : QJsonValue :=
  match o with
  | [] => JUndefined
  | (k, v) :: rest => if String.eqb k key then v else value rest key
  end.

(** [QJsonValue::isArray] *)
Definition isArray (v : QJsonValue) : bool :=
  match v with
  | JArray _ => true
  | _ => false
  end.

(** [QJsonValue::toArray]: the empty array for any other type. *)
Definition toArray (v : QJsonValue) : QJsonArray :=
  match v with
  | JArray elements => elements
  | _ => []
  end.

(** [QJsonValue::isString] *)
Definition isString (v : QJsonValue) : bool :=
  match v with
  | JString _ => true
  | _ => false
  end.

(** [QJsonValue::toString]: a null [QString] for any other type. *)
Definition toString (v : QJsonValue) : string :=
  match v with
  | JString s => s
  | _ => ""
  end.

End Json.

(** A small reader of JSON text, used to run the constructor on concrete
    file contents.  The constructor is embedded over an arbitrary
    [fromJson]; this reader is one instance.  It accepts objects, arrays,
    strings with the one-letter escapes, [true], [false], [null] and
    numbers (kept as lexemes), and rejects everything else, as well as a
    top-level value that is neither an object nor an array. *)
Module JsonReader.
Import Json.

Local Open Scope char_scope.

Definition dquote : ascii := ascii_of_nat 34.
Definition backslash : ascii := ascii_of_nat 92.

Definition is_ws (c : ascii) : bool :=
  Ascii.eqb c " " || Ascii.eqb c (ascii_of_nat 9)
  || Ascii.eqb c (ascii_of_nat 10) || Ascii.eqb c (ascii_of_nat 13).

Fixpoint skip_ws (s : list ascii) : list ascii :=
  match s with
  | c :: rest => if is_ws c then skip_ws rest else s
  | [] => []
  end.

Definition unescape (c : ascii) : option ascii :=
  if Ascii.eqb c dquote then Some dquote
  else if Ascii.eqb c backslash then Some backslash
  else if Ascii.eqb c "/" then Some "/"
  else if Ascii.eqb c "b" then Some (ascii_of_nat 8)
  else if Ascii.eqb c "f" then Some (ascii_of_nat 12)
  else if Ascii.eqb c "n" then Some (ascii_of_nat 10)
  else if Ascii.eqb c "r" then Some (ascii_of_nat 13)
  else if Ascii.eqb c "t" then Some (ascii_of_nat 9)
  else None.

(** The characters of a string literal after its opening quote. *)
Fixpoint read_string (s : list ascii) : option (string * list ascii) :=
  match s with
  | [] => None
  | c :: rest =>
      if Ascii.eqb c dquote then Some (EmptyString, rest)
      else if Ascii.eqb c backslash then
        match rest with
        | e :: rest' =>
            match unescape e, read_string rest' with
            | Some u, Some (str, out) => Some (String u str, out)
            | _, _ => None
            end
        | [] => None
        end
      else
        match read_string rest with
        | Some (str, out) => Some (String c str, out)
        | None => None
        end
  end.

Definition is_number_char (c : ascii) : bool :=
  let n := nat_of_ascii c in
  ((48 <=? n) && (n <=? 57))%nat
  || Ascii.eqb c "-" || Ascii.eqb c "+" || Ascii.eqb c "."
  || Ascii.eqb c "e" || Ascii.eqb c "E".

Fixpoint read_number (s : list ascii) : string * list ascii :=
  match s with
  | c :: rest =>
      if is_number_char c
      then let (lexeme, out) := read_number rest in (String c lexeme, out)
      else (EmptyString, s)
  | [] => (EmptyString, [])
  end.

Definition starts_number (c : ascii) : bool :=
  let n := nat_of_ascii c in
  ((48 <=? n) && (n <=? 57))%nat || Ascii.eqb c "-".

(** Replace or add a member: a repeated key keeps its last value. *)
Fixpoint put (key : string) (v : QJsonValue) (o : QJsonObject) : QJsonObject :=
  match o with
  | [] => [(key, v)]
  | (k, w) :: rest =>
      if String.eqb k key then (k, v) :: rest else (k, w) :: put key v rest
  end.

Fixpoint read_value (fuel : nat) (s : list ascii) {struct fuel}
  : option (QJsonValue * list ascii) :=
  match fuel with
  | O => None
  | S fuel' =>
      match skip_ws s with
      | "[" :: rest =>
          match skip_ws rest with
          | "]" :: out => Some (JArray [], out)
          | _ =>
              match read_elements fuel' rest with
              | Some (elements, out) => Some (JArray elements, out)
              | None => None
              end
          end
      | "{" :: rest =>
          match skip_ws rest with
          | "}" :: out => Some (JObject [], out)
          | _ =>
              match read_members fuel' rest [] with
              | Some (members, out) => Some (JObject members, out)
              | None => None
              end
          end
      | "t" :: "r" :: "u" :: "e" :: out => Some (JBool true, out)
      | "f" :: "a" :: "l" :: "s" :: "e" :: out => Some (JBool false, out)
      | "n" :: "u" :: "l" :: "l" :: out => Some (JNull, out)
      | c :: rest =>
          if Ascii.eqb c dquote then
            match read_string rest with
            | Some (str, out) => Some (JString str, out)
            | None => None
            end
          else if starts_number c then
            let (lexeme, out) := read_number (c :: rest) in
            Some (JDouble lexeme, out)
          else None
      | [] => None
      end
  end

with read_elements (fuel : nat) (s : list ascii) {struct fuel}
  : option (list QJsonValue * list ascii) :=
  match fuel with
  | O => None
  | S fuel' =>
      match read_value fuel' s with
      | Some (v, rest) =>
          match skip_ws rest with
          | "," :: rest' =>
              match read_elements fuel' rest' with
              | Some (elements, out) => Some (v :: elements, out)
              | None => None
              end
          | "]" :: out => Some ([v], out)
          | _ => None
          end
      | None => None
      end
  end

with read_members (fuel : nat) (s : list ascii) (acc : QJsonObject) {struct fuel}
  : option (QJsonObject * list ascii) :=
  match fuel with
  | O => None
  | S fuel' =>
      match skip_ws s with
      | c :: rest =>
          if Ascii.eqb c dquote then
            match read_string rest with
            | Some (key, rest1) =>
                match skip_ws rest1 with
                | ":" :: rest2 =>
                    match read_value fuel' rest2 with
                    | Some (v, rest3) =>
                        match skip_ws rest3 with
                        | "," :: rest4 => read_members fuel' rest4 (put key v acc)
                        | "}" :: out => Some (put key v acc, out)
                        | _ => None
                        end
                    | None => None
                    end
                | _ => None
                end
            | None => None
            end
          else None
      | [] => None
      end
  end.

(** The reader: every step consumes a byte, so the text's length plus
    one is fuel enough. *)
Definition fromJson (json : QByteArray) : QJsonDocument :=
  let s := list_ascii_of_string json in
  match read_value (S (List.length s)) s with
  | Some (JObject members, out) =>
      match skip_ws out with
      | [] => ObjectDocument members
      | _ :: _ => NullDocument
      end
  | Some (JArray elements, out) =>
      match skip_ws out with
      | [] => ArrayDocument elements
      | _ :: _ => NullDocument
      end
  | _ => NullDocument
  end.

(** A text with a double quote where [q] has an apostrophe. *)
Definition quoted (q : string) : string :=
  string_of_list_ascii
    (map (fun c => if Ascii.eqb c "'" then dquote else c) (list_ascii_of_string q)).

End JsonReader.

(* ===================================================================== *)
(** ** GemRepoAddDialog.cpp                                               *)
(* ===================================================================== *)

Module GemRepo.
Import Json.

(** What [QFile::open(ReadOnly | Text)] finds at a path: no file, a file
    that cannot be opened for reading, or a file and its contents. *)
Inductive FileState : Set :=
| Missing
| Unreadable
| Readable (contents : QByteArray).

Definition FileSystem : Set := string -> FileState.

(** [QFile f(path); f.open(...)] followed by [f.readAll()]: [None] when
    [open] returns false.  The contents are the bytes as [readAll] hands
    them over, after whatever the [Text] flag does to line ends. *)
Definition open (fs : FileSystem) (path : string) : option QByteArray :=
  match fs path with
  | Readable contents => Some contents
  | Missing | Unreadable => None
  end.

(** [QStandardItem]: the constructor used sets the display text. *)
Record QStandardItem : Set := mkItem { itemText : string }.

(** [QStandardItemModel], as the rows of its single column. *)
Definition QStandardItemModel : Set := list QStandardItem.

(** [QStandardItemModel::appendRow] *)
Definition appendRow (model : QStandardItemModel) (item : QStandardItem)
  : QStandardItemModel :=
  (model ++ [item])%list.

(** [QModelIndex]: a row of the model, or the invalid index. *)
Definition QModelIndex : Set := option nat.

(** [index.data(Qt::DisplayRole).toString()]: the row's text; the
    invalid index has no data, whose [toString] is empty. *)
Definition displayText (model : QStandardItemModel) (index : QModelIndex) : string :=
  match index with
  | Some row =>
      match nth_error model row with
      | Some item => itemText item
      | None => ""
      end
  | None => ""
  end.

(** [QListView] with its [QItemSelectionModel]: the current index and,
    the views being in [SingleSelection] mode, at most one selected
    row. *)
Record QListView : Set := mkView {
  currentIndex : QModelIndex;
  selectedRow : option nat
}.

Record QLineEdit : Set := mkLineEdit { text : string }.

(** [FormLineEditWidget], for what the dialog uses of it. *)
Record FormLineEditWidget : Set := mkForm { lineEdit : QLineEdit }.

(** [class GemRepoAddDialog]: the five members, with each pointer
    replaced by the object it points to. *)
Record GemRepoAddDialog : Set := mkDialog {
  m_repoPath : FormLineEditWidget;
  m_curatedRepos : QListView;
  m_curatedReposModel : QStandardItemModel;
  m_uncuratedRepos : QListView;
  m_uncuratedReposModel : QStandardItemModel
}.

(** [m_repoPath->lineEdit()->setText(itemText)] *)
Definition setText (itemText : string) (d : GemRepoAddDialog) : GemRepoAddDialog :=
  {| m_repoPath := {| lineEdit := {| text := itemText |} |};
     m_curatedRepos := m_curatedRepos d;
     m_curatedReposModel := m_curatedReposModel d;
     m_uncuratedRepos := m_uncuratedRepos d;
     m_uncuratedReposModel := m_uncuratedReposModel d |}.

(** [GemRepoAddDialog::GetRepoPath] *)
Definition GetRepoPath (d : GemRepoAddDialog) : string :=
  text (lineEdit (m_repoPath d)).

Definition curated_url : string := "https://canonical.o3de.org/curated.json".
Definition uncurated_url : string := "https://canonical.o3de.org/uncurated.json".

Section Constructor.

(** [PythonBindingsInterface::Get()->GetCacheFile] *)
Variable GetCacheFile : string -> string.

(** [QJsonDocument::fromJson] *)
Variable fromJson : QByteArray -> QJsonDocument.

Variable fs : FileSystem.

(** The range-for loop: one [QStandardItem] per element, appended. *)
Definition appendRepos (repos : QJsonArray) (model : QStandardItemModel)
  : QStandardItemModel :=
  fold_left (fun m v => appendRow m (mkItem (toString v))) repos model.

(** One cache-file block of the constructor.  The two blocks differ
    in the URL, the key and the model they fill, and in nothing
    else. *)
Definition loadRepos (url key : string) (model : QStandardItemModel)
  : QStandardItemModel :=
  let repos_path := GetCacheFile url in
  match open fs repos_path with
  | Some jsonData =>
      let document := fromJson jsonData in
      let jsonObject := object document in
      if contains jsonObject key && isArray (value jsonObject key)
      then appendRepos (toArray (value jsonObject key)) model
      else model
  | None => model
  end.

(** [GemRepoAddDialog::GemRepoAddDialog]: the path field starts
    empty, both views start with no current index and no selection,
    both models start empty and are filled from the cache files. *)
Definition GemRepoAddDialog_new : GemRepoAddDialog :=
  {| m_repoPath := {| lineEdit := {| text := "" |} |};
     m_curatedRepos := {| currentIndex := None; selectedRow := None |};
     m_curatedReposModel := loadRepos curated_url "curated" [];
     m_uncuratedRepos := {| currentIndex := None; selectedRow := None |};
     m_uncuratedReposModel := loadRepos uncurated_url "uncurated" [] |}.

(** The ways a cache file can fail to provide a list for [key]. *)
Inductive CacheFault (key : string) : FileState -> Prop :=
| cache_file_missing : CacheFault key Missing
| file_unreadable : CacheFault key Unreadable
| malformed_json : forall contents,
    fromJson contents = NullDocument ->
    CacheFault key (Readable contents)
| missing_array_field : forall contents,
    contains (object (fromJson contents)) key
      && isArray (value (object (fromJson contents)) key) = false ->
    CacheFault key (Readable contents).

End Constructor.

(** The slot connected to the curated view's [selectionChanged]. *)
Definition onCuratedSelectionChanged (d : GemRepoAddDialog) : GemRepoAddDialog :=
  let index := currentIndex (m_curatedRepos d) in
  let itemText := displayText (m_curatedReposModel d) index in
  setText itemText d.

(** The slot connected to the uncurated view's [selectionChanged]. *)
Definition onUncuratedSelectionChanged (d : GemRepoAddDialog) : GemRepoAddDialog :=
  let index := currentIndex (m_uncuratedRepos d) in
  let itemText := displayText (m_uncuratedReposModel d) index in
  setText itemText d.

(** The view's side of a selection: the row becomes the current index
    and the selected row, before [selectionChanged] is emitted. *)
Definition selectRow (row : nat) (v : QListView) : QListView :=
  {| currentIndex := Some row; selectedRow := Some row |}.

Definition withCuratedView (v : QListView) (d : GemRepoAddDialog) : GemRepoAddDialog :=
  {| m_repoPath := m_repoPath d;
     m_curatedRepos := v;
     m_curatedReposModel := m_curatedReposModel d;
     m_uncuratedRepos := m_uncuratedRepos d;
     m_uncuratedReposModel := m_uncuratedReposModel d |}.

Definition withUncuratedView (v : QListView) (d : GemRepoAddDialog) : GemRepoAddDialog :=
  {| m_repoPath := m_repoPath d;
     m_curatedRepos := m_curatedRepos d;
     m_curatedReposModel := m_curatedReposModel d;
     m_uncuratedRepos := v;
     m_uncuratedReposModel := m_uncuratedReposModel d |}.

(** [QItemSelectionModel::isSelected], for a row. *)
Definition isSelected (row : nat) (v : QListView) : bool :=
  match selectedRow v with
  | Some r => Nat.eqb r row
  | None => false
  end.

(** A click on a row of the curated view.  The row becomes the current
    index and the selected row.  The view emits [selectionChanged], and
    the slot the constructor connected to it runs, only when that changes
    the selection: a click on the row that is selected already emits
    nothing. *)
Definition clickCurated (row : nat) (d : GemRepoAddDialog) : GemRepoAddDialog :=
  let clicked := withCuratedView (selectRow row (m_curatedRepos d)) d in
  if isSelected row (m_curatedRepos d)
  then clicked
  else onCuratedSelectionChanged clicked.

(** A click on a row of the uncurated view, likewise. *)
Definition clickUncurated (row : nat) (d : GemRepoAddDialog) : GemRepoAddDialog :=
  let clicked := withUncuratedView (selectRow row (m_uncuratedRepos d)) d in
  if isSelected row (m_uncuratedRepos d)
  then clicked
  else onUncuratedSelectionChanged clicked.

(** What the user can do to the dialog: click a row of one of the lists,
    or put a text in the path field.  A row the model does not have
    cannot be clicked. *)
Inductive UserAction : Set :=
| SelectCurated (row : nat)
| SelectUncurated (row : nat)
| EditPath (newText : string).

Definition perform (a : UserAction) (d : GemRepoAddDialog) : GemRepoAddDialog :=
  match a with
  | SelectCurated row =>
      if (row <? List.length (m_curatedReposModel d))%nat
      then clickCurated row d
      else d
  | SelectUncurated row =>
      if (row <? List.length (m_uncuratedReposModel d))%nat
      then clickUncurated row d
      else d
  | EditPath newText => setText newText d
  end.

Definition performAll (actions : list UserAction) (d : GemRepoAddDialog)
  : GemRepoAddDialog :=
  fold_left (fun d a => perform a d) actions d.

(** The two repository lists, to state a property of both at once. *)
Inductive RepoList : Set :=
| Curated
| Uncurated.

Definition other (which : RepoList) : RepoList :=
  match which with
  | Curated => Uncurated
  | Uncurated => Curated
  end.

Definition url (which : RepoList) : string :=
  match which with
  | Curated => curated_url
  | Uncurated => uncurated_url
  end.

Definition key (which : RepoList) : string :=
  match which with
  | Curated => "curated"
  | Uncurated => "uncurated"
  end.

Definition modelOf (which : RepoList) (d : GemRepoAddDialog) : QStandardItemModel :=
  match which with
  | Curated => m_curatedReposModel d
  | Uncurated => m_uncuratedReposModel d
  end.

Definition viewOf (which : RepoList) (d : GemRepoAddDialog) : QListView :=
  match which with
  | Curated => m_curatedRepos d
  | Uncurated => m_uncuratedRepos d
  end.

Definition select (which : RepoList) (row : nat) : UserAction :=
  match which with
  | Curated => SelectCurated row
  | Uncurated => SelectUncurated row
  end.

(** The texts a model shows, top to bottom. *)
Definition entries (model : QStandardItemModel) : list string :=
  map itemText model.

(** A file system with the given files and nothing else. *)
Fixpoint files (l : list (string * FileState)) : FileSystem :=
  fun path =>
    match l with
    | [] => Missing
    | (p, st) :: rest => if String.eqb p path then st else files rest path
    end.

(** *** Sample inputs *)

(** A cache lookup that maps each URL to a path of its own. *)
Definition sampleCacheFile (remote : string) : string :=
  "/cache/" ++ remote.

(** Both cache files present and well formed; the uncurated array also
    holds elements that are not strings. *)
Definition sampleFiles : FileSystem :=
  files
    [ (sampleCacheFile curated_url,
       Readable (JsonReader.quoted "{'curated': ['a','b']}"));
      (sampleCacheFile uncurated_url,
       Readable (JsonReader.quoted
                   "{'uncurated': ['u1', 7, null, {'k': []}, 'u2', true]}")) ].

(** No curated file; an uncurated file that cannot be opened. *)
Definition absentFiles : FileSystem :=
  files [ (sampleCacheFile uncurated_url, Unreadable) ].

(** A curated file cut short; an uncurated file that is valid JSON
    without the key. *)
Definition brokenFiles : FileSystem :=
  files
    [ (sampleCacheFile curated_url,
       Readable (JsonReader.quoted "{'curated': ['a',"));
      (sampleCacheFile uncurated_url,
       Readable (JsonReader.quoted "{'curated': ['a']}")) ].

(** The key is there but its value is no array. *)
Definition misshapenFiles : FileSystem :=
  files
    [ (sampleCacheFile curated_url,
       Readable (JsonReader.quoted "{'curated': 'not-an-array'}")) ].

Definition sampleDialog : GemRepoAddDialog :=
  GemRepoAddDialog_new sampleCacheFile JsonReader.fromJson sampleFiles.

End GemRepo.

(* ===================================================================== *)
(** ** Flag sets of GemInfo.h ([Q_DECLARE_FLAGS])                         *)
(* ===================================================================== *)

Module Flags.
Import GemInfo.

(** [QFlags::testFlag]: every bit of [flag] is in [flags]; the zero flag
    is only in the empty set. *)
Definition testFlag (flags flag : Z) : bool :=
  (Z.land flags flag =? flag) && (negb (flag =? 0) || (flags =? flag)).

(** A [QFlags] built from enumerators: starting from the empty set, each
    one is or-ed in ([operator|], [operator|=]). *)
Definition flagsOf {A : Type} (value : A -> Z) (enumerators : list A) : Z :=
  fold_left (fun flags e => Z.lor flags (value e)) enumerators 0.

(** The bit position [k] of [enum Type]'s initialisers [1 << k]. *)
Definition GemType_bit (t : GemType) : Z :=
  match t with
  | Asset => 0
  | Code => 1
  | Tool => 2
  end.

(** The bit position [k] of [enum GemOrigin]'s initialisers [1 << k]. *)
Definition GemOrigin_bit (o : GemOrigin) : Z :=
  match o with
  | Open3DEngine => 0
  | Local => 1
  | Remote => 2
  end.

Definition all_types : list GemType := [Asset; Code; Tool].

Definition all_origins : list GemOrigin := [Open3DEngine; Local; Remote].

End Flags.

(* ===================================================================== *)
(** ** What the path field can hold                                      *)
(* ===================================================================== *)

Module GemRepoSession.
Import GemRepo.

(** The texts the user typed into the path field, oldest first. *)
Fixpoint typedTexts (actions : list UserAction) : list string :=
  match actions with
  | [] => []
  | EditPath newText :: rest => newText :: typedTexts rest
  | _ :: rest => typedTexts rest
  end.

(** Where the text of the path field can come from: it is empty, or one
    of the texts typed, or the text of an entry of one of the lists. *)
Definition pathFrom (typed : list string) (d : GemRepoAddDialog) : Prop :=
  GetRepoPath d = ""
  \/ In (GetRepoPath d) typed
  \/ In (GetRepoPath d) (entries (m_curatedReposModel d))
  \/ In (GetRepoPath d) (entries (m_uncuratedReposModel d)).

End GemRepoSession.

(* ===================================================================== *)
(** ** Properties of the gem metadata record                              *)
(* ===================================================================== *)

Module GemInfoFacts.
Import GemInfo.

(** C10: a default-constructed [GemInfo] has the name
    "Unknown Gem Name", the origin "Unknown Creator" and the version
    "Unknown Version"; its path is empty, its gem origin is [Local], its
    download status is [UnknownDownloadStatus] and it is not added.  The
    name of a record that was never populated is therefore not empty. *)
Theorem GemInfo_default_members :
  m_name GemInfo_default = "Unknown Gem Name"
  /\ m_origin GemInfo_default = "Unknown Creator"
  /\ m_version GemInfo_default = "Unknown Version"
  /\ m_path GemInfo_default = ""
  /\ m_gemOrigin GemInfo_default = Local
  /\ m_downloadStatus GemInfo_default = UnknownDownloadStatus
  /\ m_isAdded GemInfo_default = false
  /\ isEmpty (m_name GemInfo_default) = false
  /\ isEmpty (m_origin GemInfo_default) = false
  /\ isEmpty (m_version GemInfo_default) = false
  /\ isEmpty (m_path GemInfo_default) = true.
Proof. repeat split. Qed.

(** C6: [IsCompatible] returns false exactly when at least one of
    [m_incompatibleEngineDependencies] and [m_incompatibleGemDependencies]
    is non-empty, and true otherwise. *)
Theorem IsCompatible_iff (g : GemInfo) :
  (IsCompatible g = false <->
     m_incompatibleEngineDependencies g <> []
     \/ m_incompatibleGemDependencies g <> [])
  /\ (IsCompatible g = true <->
        m_incompatibleEngineDependencies g = []
        /\ m_incompatibleGemDependencies g = []).
Proof.
  unfold IsCompatible.
  destruct (m_incompatibleEngineDependencies g) as [|e es];
    destruct (m_incompatibleGemDependencies g) as [|x xs]; split; split;
    try discriminate; try (intros _; (left + right); discriminate);
    try tauto; try (intros [H | H]; congruence);
    try (intros [H1 H2]; discriminate).
Qed.

Example IsCompatible_empty_empty : IsCompatible GemInfo_default = true.
Proof. reflexivity. Qed.

(** Masking with a single bit leaves that bit or nothing. *)
Lemma land_single_bit (m k : Z) :
  0 <= k ->
  Z.land m (Z.shiftl 1 k) = if Z.testbit m k then Z.shiftl 1 k else 0.
Proof.
  intros Hk. apply Z.bits_inj'. intros n Hn.
  rewrite Z.land_spec, Z.shiftl_spec by assumption.
  destruct (Z.eq_dec n k) as [-> | Hne].
  - rewrite Z.sub_diag. simpl (Z.testbit 1 0). rewrite andb_true_r.
    destruct (Z.testbit m k) eqn:E.
    + rewrite Z.shiftl_spec, Z.sub_diag by assumption. reflexivity.
    + rewrite Z.bits_0. reflexivity.
  - assert (Hone : Z.testbit 1 (n - k) = false).
    { destruct (Z.ltb_spec n k).
      - apply Z.testbit_neg_r. lia.
      - change 1 with (2 ^ 0). apply Z.pow2_bits_false. lia. }
    rewrite Hone, andb_false_r.
    destruct (Z.testbit m k).
    + rewrite Z.shiftl_spec, Hone by assumption. reflexivity.
    + rewrite Z.bits_0. reflexivity.
Qed.

Lemma Platform_bit_nonneg (p : Platform) : 0 <= Platform_bit p.
Proof. destruct p; simpl; lia. Qed.

Lemma Platform_value_pos (p : Platform) : 0 < Platform_value p.
Proof. destruct p; reflexivity. Qed.

(** C7: whatever bits [m_platforms] holds, [IsPlatformSupported p] is
    true exactly when the bit of [p] is set in it. *)
Theorem IsPlatformSupported_iff (g : GemInfo) (p : Platform) :
  IsPlatformSupported g p = true <->
  Z.testbit (m_platforms g) (Platform_bit p) = true.
Proof.
  unfold IsPlatformSupported, Platform_value.
  rewrite land_single_bit by apply Platform_bit_nonneg.
  pose proof (Platform_value_pos p) as Hpos. unfold Platform_value in Hpos.
  destruct (Z.testbit (m_platforms g) (Platform_bit p)).
  - split; [reflexivity | intros _].
    apply negb_true_iff, Z.eqb_neq. lia.
  - split; [simpl; discriminate | discriminate].
Qed.

Section Labels.
Variable platformLabel : Platform -> string.
Variable labelMatches : string -> string -> bool.

Local Abbreviation fromString := (GetPlatformFromString platformLabel labelMatches).
Local Abbreviation fromStringList := (GetPlatformsFromStringList platformLabel labelMatches).
Local Abbreviation known := (recognized platformLabel labelMatches).

Lemma firstMatch_none (candidates : list Platform) (s : string) :
  existsb (fun p => labelMatches (platformLabel p) s) candidates = false ->
  firstMatch platformLabel labelMatches candidates s = 0.
Proof.
  induction candidates as [|p rest IH]; simpl; intros H; [reflexivity|].
  apply orb_false_iff in H. destruct H as [Hp Hrest].
  rewrite Hp. apply IH, Hrest.
Qed.

(** A text that matches no label parses to no bits. *)
Lemma unrecognized_no_bits (s : string) :
  known s = false -> fromString s = 0.
Proof. apply firstMatch_none. Qed.

Lemma fold_lor_from (l : list string) (acc : Z) :
  fold_left (fun platforms s => Z.lor platforms (fromString s)) l acc
  = Z.lor acc (fold_right Z.lor 0 (map (fun s => fromString s) l)).
Proof.
  revert acc. induction l as [|s l IH]; intros acc; simpl.
  - rewrite Z.lor_0_r. reflexivity.
  - rewrite IH, Z.lor_assoc. reflexivity.
Qed.

Lemma fromStringList_union (l : list string) :
  fromStringList l = fold_right Z.lor 0 (map (fun s => fromString s) l).
Proof.
  unfold GetPlatformsFromStringList. rewrite fold_lor_from.
  apply Z.lor_0_l.
Qed.

Lemma union_filter_known (l : list string) :
  fold_right Z.lor 0 (map (fun s => fromString s) (filter known l))
  = fold_right Z.lor 0 (map (fun s => fromString s) l).
Proof.
  induction l as [|s l IH]; simpl; [reflexivity|].
  destruct (known s) eqn:E; simpl.
  - rewrite IH. reflexivity.
  - rewrite IH, (unrecognized_no_bits s E), Z.lor_0_l. reflexivity.
Qed.

Lemma union_testbit (l : list string) (k : Z) :
  Z.testbit (fold_right Z.lor 0 (map (fun s => fromString s) l)) k
  = existsb (fun s => Z.testbit (fromString s) k) l.
Proof.
  induction l as [|s l IH]; simpl.
  - apply Z.bits_0.
  - rewrite Z.lor_spec, IH. reflexivity.
Qed.

End Labels.

(** C4: for each of the five platform flags, parsing the label that
    [GetPlatformString] gives it yields that flag again.  The labels and
    the comparison are those of [GemInfo.cpp]: the comparison accepts a
    label against itself and no label against another flag's. *)
Theorem GetPlatformFromString_GetPlatformString
    (platformLabel : Platform -> string)
    (labelMatches : string -> string -> bool)
    (consistent : forall p, labelMatches (platformLabel p) (platformLabel p) = true)
    (single : forall p q, p <> q ->
                labelMatches (platformLabel q) (platformLabel p) = false)
    (p : Platform) :
  GetPlatformFromString platformLabel labelMatches
    (GetPlatformString platformLabel p)
  = Platform_value p.
Proof.
  unfold GetPlatformFromString, GetPlatformString, all_platforms.
  destruct p; cbn [firstMatch];
    repeat (rewrite single by discriminate);
    rewrite consistent; reflexivity.
Qed.

Lemma enumeratorLabel_consistent (p : Platform) :
  String.eqb (enumeratorLabel p) (enumeratorLabel p) = true.
Proof. apply String.eqb_refl. Qed.

Lemma enumeratorLabel_single (p q : Platform) :
  p <> q -> String.eqb (enumeratorLabel q) (enumeratorLabel p) = false.
Proof.
  intros Hne. destruct p, q; try reflexivity; exfalso; apply Hne; reflexivity.
Qed.

(** The round trip at [Linux], with the enumerator names as labels. *)
Lemma GetPlatformFromString_GetPlatformString_Linux :
  GetPlatformFromString enumeratorLabel String.eqb
    (GetPlatformString enumeratorLabel Linux)
  = 4.
Proof.
  exact (GetPlatformFromString_GetPlatformString
           enumeratorLabel String.eqb
           enumeratorLabel_consistent enumeratorLabel_single Linux).
Defined.

(** C5: [GetPlatformsFromStringList] is the bitwise union of
    [GetPlatformFromString] over the entries: a bit is set in the result
    exactly when some entry parses to a flag with that bit.  An entry that
    matches no label parses to no bits, and the result is the same with
    such entries left out; the function is total, so no entry is an
    error. *)
Theorem GetPlatformsFromStringList_union
    (platformLabel : Platform -> string)
    (labelMatches : string -> string -> bool)
    (platformStrings : list string) :
  let fromString := GetPlatformFromString platformLabel labelMatches in
  let fromStringList := GetPlatformsFromStringList platformLabel labelMatches in
  let known := recognized platformLabel labelMatches in
  fromStringList platformStrings
    = fold_right Z.lor 0 (map fromString platformStrings)
  /\ (forall k, Z.testbit (fromStringList platformStrings) k
               = existsb (fun s => Z.testbit (fromString s) k) platformStrings)
  /\ fromStringList (filter known platformStrings)
     = fromStringList platformStrings
  /\ Forall (fun s => fromString s = 0)
            (filter (fun s => negb (known s)) platformStrings).
Proof.
  cbv zeta. repeat split.
  - apply fromStringList_union.
  - intros k. rewrite fromStringList_union. apply union_testbit.
  - rewrite !fromStringList_union. apply union_filter_known.
  - apply Forall_forall. intros s Hs. apply filter_In in Hs.
    destruct Hs as [_ Hs]. apply negb_true_iff in Hs.
    apply unrecognized_no_bits, Hs.
Qed.

Example GetPlatformsFromStringList_mixed :
  GetPlatformsFromStringList enumeratorLabel String.eqb
    ["Linux"; "Amiga"; "Windows"; "linux"; "Linux"]
  = Z.lor (Platform_value Linux) (Platform_value Windows).
Proof. reflexivity. Qed.

End GemInfoFacts.

(* ===================================================================== *)
(** ** Properties of the repository-add dialog                            *)
(* ===================================================================== *)

Module GemRepoFacts.
Import Json GemRepo.

Section Loading.
Variable GetCacheFile : string -> string.
Variable fromJson : QByteArray -> QJsonDocument.
Variable fs : FileSystem.

Local Abbreviation load := (loadRepos GetCacheFile fromJson fs).
Local Abbreviation dialog := (GemRepoAddDialog_new GetCacheFile fromJson fs).

(** The loop appends, in array order, one item per element. *)
Lemma appendRepos_map (repos : QJsonArray) (model : QStandardItemModel) :
  appendRepos repos model
  = (model ++ map (fun v => mkItem (toString v)) repos)%list.
Proof.
  unfold appendRepos. revert model.
  induction repos as [|v repos IH]; intros model; simpl.
  - symmetry. apply app_nil_r.
  - rewrite IH. unfold appendRow. rewrite <- app_assoc. reflexivity.
Qed.

Lemma modelOf_new (which : RepoList) :
  modelOf which dialog = load (url which) (key which) [].
Proof. destruct which; reflexivity. Qed.

Lemma load_array (remote field : string) (contents : QByteArray)
    (o : QJsonObject) (repos : QJsonArray) :
  fs (GetCacheFile remote) = Readable contents ->
  fromJson contents = ObjectDocument o ->
  contains o field = true ->
  value o field = JArray repos ->
  load remote field [] = map (fun v => mkItem (toString v)) repos.
Proof.
  intros Hfile Hdoc Hhas Hval.
  unfold loadRepos, open. rewrite Hfile, Hdoc. cbn [object].
  rewrite Hhas, Hval. cbn [isArray toArray andb].
  apply appendRepos_map.
Qed.

Lemma load_fault (remote field : string) :
  CacheFault fromJson field (fs (GetCacheFile remote)) ->
  load remote field [] = [].
Proof.
  intros Hfault. unfold loadRepos, open.
  destruct Hfault as [ | | contents Hnull | contents Hshape ].
  - reflexivity.
  - reflexivity.
  - rewrite Hnull. reflexivity.
  - rewrite Hshape. reflexivity.
Qed.

End Loading.

(** C1: when a cache file opens and its text reads as a document whose
    top-level object has an array under "curated" (for the uncurated
    file: "uncurated"), the constructor fills that list's model with one
    entry per element, in array order, the entry's text being the
    element's string value; for an array of strings the entries are those
    strings. *)
Theorem constructor_populates_list
    (GetCacheFile : string -> string)
    (fromJson : QByteArray -> QJsonDocument)
    (fs : FileSystem) (which : RepoList)
    (contents : QByteArray) (o : QJsonObject) (repos : QJsonArray) :
  fs (GetCacheFile (url which)) = Readable contents ->
  fromJson contents = ObjectDocument o ->
  contains o (key which) = true ->
  value o (key which) = JArray repos ->
  let d := GemRepoAddDialog_new GetCacheFile fromJson fs in
  entries (modelOf which d) = map toString repos
  /\ (forall names, repos = map JString names ->
                    entries (modelOf which d) = names).
Proof.
  intros Hfile Hdoc Hhas Hval d.
  assert (Hentries : entries (modelOf which d) = map toString repos).
  { subst d. rewrite modelOf_new.
    rewrite (load_array _ _ _ _ _ contents o repos Hfile Hdoc Hhas Hval).
    unfold entries. rewrite map_map. reflexivity. }
  split; [exact Hentries|].
  intros names ->. rewrite Hentries, map_map. cbn [toString].
  apply map_id.
Qed.

(** The curated file of the sample holds an object whose "curated" array
    is "a", "b": the curated list shows "a" then "b" and nothing else. *)
Lemma constructor_populates_list_a_b :
  entries (m_curatedReposModel sampleDialog) = ["a"; "b"].
Proof.
  exact (proj1 (constructor_populates_list
                  sampleCacheFile JsonReader.fromJson sampleFiles Curated
                  _ [("curated", JArray [JString "a"; JString "b"])]
                  [JString "a"; JString "b"]
                  eq_refl eq_refl eq_refl eq_refl)).
Defined.

(** C2: whichever way a cache file fails (missing, unreadable, not JSON,
    or JSON without an array under the key), the constructor returns a
    dialog in which that list is empty; the path field is empty and takes
    whatever the user enters. *)
Theorem cache_fault_leaves_list_empty
    (GetCacheFile : string -> string)
    (fromJson : QByteArray -> QJsonDocument)
    (fs : FileSystem) (which : RepoList) :
  CacheFault fromJson (key which) (fs (GetCacheFile (url which))) ->
  let d := GemRepoAddDialog_new GetCacheFile fromJson fs in
  modelOf which d = []
  /\ GetRepoPath d = ""
  /\ (forall s, GetRepoPath (perform (EditPath s) d) = s).
Proof.
  intros Hfault d. subst d. rewrite modelOf_new.
  rewrite (load_fault _ _ _ _ _ Hfault).
  repeat split.
Qed.

(** The four kinds of fault, one sample file each. *)
Lemma cache_fault_leaves_list_empty_samples :
  let build := GemRepoAddDialog_new sampleCacheFile JsonReader.fromJson in
  m_curatedReposModel (build absentFiles) = []
  /\ m_uncuratedReposModel (build absentFiles) = []
  /\ m_curatedReposModel (build brokenFiles) = []
  /\ m_uncuratedReposModel (build brokenFiles) = []
  /\ m_curatedReposModel (build misshapenFiles) = [].
Proof.
  cbv zeta. repeat apply conj.
  - exact (proj1 (cache_fault_leaves_list_empty
                    sampleCacheFile JsonReader.fromJson absentFiles Curated
                    (cache_file_missing _ _))).
  - exact (proj1 (cache_fault_leaves_list_empty
                    sampleCacheFile JsonReader.fromJson absentFiles Uncurated
                    (file_unreadable _ _))).
  - exact (proj1 (cache_fault_leaves_list_empty
                    sampleCacheFile JsonReader.fromJson brokenFiles Curated
                    (malformed_json JsonReader.fromJson "curated"
                       (JsonReader.quoted "{'curated': ['a',") eq_refl))).
  - exact (proj1 (cache_fault_leaves_list_empty
                    sampleCacheFile JsonReader.fromJson brokenFiles Uncurated
                    (missing_array_field JsonReader.fromJson "uncurated"
                       (JsonReader.quoted "{'curated': ['a']}") eq_refl))).
  - exact (proj1 (cache_fault_leaves_list_empty
                    sampleCacheFile JsonReader.fromJson misshapenFiles Curated
                    (missing_array_field JsonReader.fromJson "curated"
                       (JsonReader.quoted "{'curated': 'not-an-array'}")
                       eq_refl))).
Defined.

(** C9: under the same conditions as C1 the model gets as many rows as
    the array has elements, whatever their JSON types; the row of an
    element that is not a string has the empty text. *)
Theorem one_row_per_element
    (GetCacheFile : string -> string)
    (fromJson : QByteArray -> QJsonDocument)
    (fs : FileSystem) (which : RepoList)
    (contents : QByteArray) (o : QJsonObject) (repos : QJsonArray) :
  fs (GetCacheFile (url which)) = Readable contents ->
  fromJson contents = ObjectDocument o ->
  contains o (key which) = true ->
  value o (key which) = JArray repos ->
  let d := GemRepoAddDialog_new GetCacheFile fromJson fs in
  List.length (modelOf which d) = List.length repos
  /\ (forall i v, nth_error repos i = Some v ->
                  isString v = false ->
                  nth_error (entries (modelOf which d)) i = Some "").
Proof.
  intros Hfile Hdoc Hhas Hval d. subst d. rewrite modelOf_new.
  rewrite (load_array _ _ _ _ _ contents o repos Hfile Hdoc Hhas Hval).
  split.
  - apply length_map.
  - intros i v Hi Hv. unfold entries. rewrite map_map. cbn [itemText].
    rewrite nth_error_map, Hi. cbn [option_map].
    destruct v; try discriminate Hv; reflexivity.
Qed.

(** The uncurated file of the sample has six elements, the second of
    them the number 7: six rows, the second one empty. *)
Lemma one_row_per_element_sample :
  List.length (m_uncuratedReposModel sampleDialog) = 6%nat
  /\ nth_error (entries (m_uncuratedReposModel sampleDialog)) 1 = Some "".
Proof.
  pose proof (one_row_per_element
                sampleCacheFile JsonReader.fromJson sampleFiles Uncurated
                _ [("uncurated",
                    JArray [JString "u1"; JDouble "7"; JNull;
                            JObject [("k", JArray [])]; JString "u2";
                            JBool true])]
                _ eq_refl eq_refl eq_refl eq_refl) as [Hrows Htext].
  split.
  - exact Hrows.
  - exact (Htext 1%nat (JDouble "7") eq_refl eq_refl).
Defined.

Lemma isSelected_false (row : nat) (v : QListView) :
  selectedRow v <> Some row -> isSelected row v = false.
Proof.
  unfold isSelected. intros Hne.
  destruct (selectedRow v) as [r|]; [|reflexivity].
  apply Nat.eqb_neq. intros ->. apply Hne. reflexivity.
Qed.

Lemma isSelected_true (row : nat) (v : QListView) :
  selectedRow v = Some row -> isSelected row v = true.
Proof. unfold isSelected. intros ->. apply Nat.eqb_refl. Qed.

(** A click on the row that is selected already runs no slot: the path
    field and the models are as before. *)
Lemma click_on_selected_row (d : GemRepoAddDialog) (which : RepoList)
    (row : nat) :
  selectedRow (viewOf which d) = Some row ->
  GetRepoPath (perform (select which row) d) = GetRepoPath d.
Proof.
  intros Hsel. apply isSelected_true in Hsel.
  destruct which; cbn [select perform viewOf] in *;
    match goal with |- context [(?r <? ?n)%nat] => destruct (r <? n)%nat end;
    try reflexivity; unfold clickCurated, clickUncurated; rewrite Hsel;
    reflexivity.
Qed.

(** C3, as the code has it: selecting an entry of either list that is not
    the list's selected entry already puts exactly that entry's text in
    the path field, whatever the field held before, makes the entry the
    current and selected row of its own view, and leaves the other view's
    current index and selection as they were. *)
Theorem selecting_sets_path
    (d : GemRepoAddDialog) (which : RepoList) (row : nat)
    (item : QStandardItem) :
  nth_error (modelOf which d) row = Some item ->
  selectedRow (viewOf which d) <> Some row ->
  let d' := perform (select which row) d in
  GetRepoPath d' = itemText item
  /\ viewOf (other which) d' = viewOf (other which) d
  /\ viewOf which d' = {| currentIndex := Some row; selectedRow := Some row |}
  /\ modelOf Curated d' = modelOf Curated d
  /\ modelOf Uncurated d' = modelOf Uncurated d.
Proof.
  intros Hrow Hnew d'.
  assert (Hlt : (row <? List.length (modelOf which d))%nat = true).
  { apply Nat.ltb_lt, nth_error_Some. rewrite Hrow. discriminate. }
  apply isSelected_false in Hnew.
  subst d'. destruct which; cbn [select perform modelOf viewOf] in *;
    rewrite Hlt; unfold clickCurated, clickUncurated; rewrite Hnew;
    unfold onCuratedSelectionChanged, onUncuratedSelectionChanged,
      GetRepoPath, displayText;
    cbn; rewrite Hrow; repeat split.
Qed.

(** With "a" in the field and a row selected in the uncurated list,
    selecting "b" in the curated list leaves "b" in the field and the
    uncurated selection in place. *)
Lemma selecting_sets_path_sample :
  let before := performAll [SelectUncurated 0; SelectCurated 0] sampleDialog in
  let after := perform (SelectCurated 1) before in
  GetRepoPath before = "a"
  /\ GetRepoPath after = "b"
  /\ m_uncuratedRepos after = {| currentIndex := Some 0%nat; selectedRow := Some 0%nat |}.
Proof.
  cbv zeta.
  assert (Hnew : selectedRow
                   (viewOf Curated
                      (performAll [SelectUncurated 0; SelectCurated 0]
                         sampleDialog))
                 <> Some 1%nat) by (vm_compute; discriminate).
  pose proof (selecting_sets_path
                (performAll [SelectUncurated 0; SelectCurated 0] sampleDialog)
                Curated 1 (mkItem "b") eq_refl Hnew) as [Htext [Hother _]].
  split; [reflexivity|]. split; [exact Htext | exact Hother].
Defined.

(** C3, as the claim has it, fails: with "a" selected in the curated list
    and "x" typed over it, selecting "a" again changes no selection, and
    the field keeps "x". *)
Lemma selecting_selected_entry_keeps_path :
  let d := performAll [SelectCurated 0; EditPath "x"] sampleDialog in
  nth_error (modelOf Curated d) 0 = Some (mkItem "a")
  /\ GetRepoPath d = "x"
  /\ GetRepoPath (perform (select Curated 0) d) = "x"
  /\ GetRepoPath (perform (select Curated 0) d) <> itemText (mkItem "a").
Proof.
  cbv zeta. repeat split.
  vm_compute. discriminate.
Qed.

(** C8: [GetRepoPath] returns the text the path field holds, as it is:
    whatever text was last set is what comes back. *)
Theorem GetRepoPath_verbatim (d : GemRepoAddDialog) (s : string) :
  GetRepoPath d = text (lineEdit (m_repoPath d))
  /\ GetRepoPath (setText s d) = s
  /\ GetRepoPath (perform (EditPath s) d) = s.
Proof. repeat split. Qed.

Example GetRepoPath_keeps_blanks :
  GetRepoPath (perform (EditPath "  C:/Repos/My Repo/  ") sampleDialog)
  = "  C:/Repos/My Repo/  ".
Proof. reflexivity. Qed.

End GemRepoFacts.


(* ===================================================================== *)
(** ** Properties of the flag enumerations                                *)
(* ===================================================================== *)

Module FlagsFacts.
Import GemInfo Flags.

Section SingleBits.
Variable A : Type.
Variable bit : A -> Z.
Hypothesis bit_nonneg : forall a, 0 <= bit a.

Local Abbreviation value := (fun a => Z.shiftl 1 (bit a)).

Lemma flagsOf_from (l : list A) (f : A -> Z) (acc : Z) :
  fold_left (fun flags e => Z.lor flags (f e)) l acc
  = Z.lor acc (flagsOf f l).
Proof.
  unfold flagsOf. revert acc.
  induction l as [|a l IH]; intros acc; simpl.
  - symmetry. apply Z.lor_0_r.
  - rewrite IH, (IH (f a)), Z.lor_assoc. reflexivity.
Qed.

Lemma flagsOf_cons (f : A -> Z) (a : A) (l : list A) :
  flagsOf f (a :: l) = Z.lor (f a) (flagsOf f l).
Proof. unfold flagsOf at 1. simpl. apply flagsOf_from. Qed.

Lemma flagsOf_ext (f g : A -> Z) (l : list A) :
  (forall a, f a = g a) -> flagsOf f l = flagsOf g l.
Proof.
  intros Hfg. induction l as [|a l IH]; [reflexivity|].
  rewrite !flagsOf_cons, Hfg, IH. reflexivity.
Qed.

Lemma single_bit_testbit (k j : Z) :
  0 <= k -> Z.testbit (Z.shiftl 1 k) j = (k =? j).
Proof.
  intros Hk. rewrite Z.shiftl_1_l. apply Z.pow2_bits_eqb, Hk.
Qed.

Lemma single_bit_pos (k : Z) : 0 <= k -> 0 < Z.shiftl 1 k.
Proof.
  intros Hk. rewrite Z.shiftl_1_l. apply Z.pow_pos_nonneg; lia.
Qed.

(** Testing a single-bit flag is testing that bit. *)
Lemma testFlag_single_bit (flags k : Z) :
  0 <= k -> testFlag flags (Z.shiftl 1 k) = Z.testbit flags k.
Proof.
  intros Hk. unfold testFlag.
  pose proof (single_bit_pos k Hk) as Hpos.
  rewrite GemInfoFacts.land_single_bit by assumption.
  replace (Z.shiftl 1 k =? 0) with false by (symmetry; apply Z.eqb_neq; lia).
  cbn [negb orb]. rewrite andb_true_r.
  destruct (Z.testbit flags k).
  - apply Z.eqb_refl.
  - apply Z.eqb_neq. lia.
Qed.

Lemma flagsOf_testbit (l : list A) (k : Z) :
  Z.testbit (flagsOf value l) k = existsb (fun a => bit a =? k) l.
Proof.
  induction l as [|a l IH].
  - apply Z.bits_0.
  - rewrite flagsOf_cons, Z.lor_spec, IH.
    rewrite single_bit_testbit by apply bit_nonneg. reflexivity.
Qed.

Hypothesis bit_inj : forall a b, bit a = bit b -> a = b.

(** A set built from single-bit flags holds exactly the flags it was
    built from. *)
Lemma testFlag_flagsOf (l : list A) (a : A) :
  testFlag (flagsOf value l) (value a) = true <-> In a l.
Proof.
  cbv beta. rewrite testFlag_single_bit by apply bit_nonneg.
  rewrite flagsOf_testbit, existsb_exists. split.
  - intros [b [Hb Heq]]. apply Z.eqb_eq, bit_inj in Heq. subst b. exact Hb.
  - intros Ha. exists a. split; [exact Ha | apply Z.eqb_refl].
Qed.

Lemma lor_below_pow2 (n a b : Z) :
  0 <= a < 2 ^ n -> 0 <= b < 2 ^ n -> 0 <= Z.lor a b < 2 ^ n.
Proof.
  intros [Ha0 Ha] [Hb0 Hb].
  assert (Hnn : 0 <= Z.lor a b) by (apply Z.lor_nonneg; split; assumption).
  split; [exact Hnn|].
  destruct (Z.eq_dec (Z.lor a b) 0) as [-> | Hne]; [lia|].
  destruct (Z.eq_dec a 0) as [-> | Ha1]; [rewrite Z.lor_0_l; exact Hb|].
  destruct (Z.eq_dec b 0) as [-> | Hb1]; [rewrite Z.lor_0_r; exact Ha|].
  apply Z.log2_lt_pow2; [lia|].
  rewrite Z.log2_lor by assumption.
  apply Z.max_lub_lt; apply Z.log2_lt_pow2; lia.
Qed.

(** Flags whose bits are all below [n] build sets below [2 ^ n]. *)
Lemma flagsOf_below (n : Z) (l : list A) :
  0 <= n -> (forall a, bit a < n) -> 0 <= flagsOf value l < 2 ^ n.
Proof.
  intros Hn Hbit. induction l as [|a l IH].
  - unfold flagsOf. simpl. split; [lia|]. apply Z.pow_pos_nonneg; lia.
  - rewrite flagsOf_cons. apply lor_below_pow2; [|exact IH].
    split; [apply Z.lt_le_incl, single_bit_pos, bit_nonneg|].
    rewrite Z.shiftl_1_l. apply Z.pow_lt_mono_r; [lia|exact Hn|apply Hbit].
Qed.

End SingleBits.

Lemma Platform_bit_inj (p q : Platform) : Platform_bit p = Platform_bit q -> p = q.
Proof. destruct p, q; simpl; intros H; try reflexivity; discriminate H. Qed.

Lemma GemType_bit_inj (s t : GemType) : GemType_bit s = GemType_bit t -> s = t.
Proof. destruct s, t; simpl; intros H; try reflexivity; discriminate H. Qed.

Lemma GemOrigin_bit_inj (o q : GemOrigin) : GemOrigin_bit o = GemOrigin_bit q -> o = q.
Proof. destruct o, q; simpl; intros H; try reflexivity; discriminate H. Qed.

Lemma GemType_bit_nonneg (t : GemType) : 0 <= GemType_bit t.
Proof. destruct t; simpl; lia. Qed.

Lemma GemOrigin_bit_nonneg (o : GemOrigin) : 0 <= GemOrigin_bit o.
Proof. destruct o; simpl; lia. Qed.

Lemma GemType_value_bit (t : GemType) : GemType_value t = Z.shiftl 1 (GemType_bit t).
Proof. destruct t; reflexivity. Qed.

Lemma GemOrigin_value_bit (o : GemOrigin) :
  GemOrigin_value o = Z.shiftl 1 (GemOrigin_bit o).
Proof. destruct o; reflexivity. Qed.

(** X1: a [Platforms] value built by or-ing platform enumerators holds,
    by [testFlag], exactly the platforms it was built from. *)
Theorem Platforms_hold_their_flags (platforms : list Platform) (p : Platform) :
  testFlag (flagsOf Platform_value platforms) (Platform_value p) = true
  <-> In p platforms.
Proof.
  exact (testFlag_flagsOf Platform Platform_bit GemInfoFacts.Platform_bit_nonneg
           Platform_bit_inj platforms p).
Qed.

(** X2: every combination of platform flags lies in the low
    [NumPlatforms] bits; the five flags together fill them, and
    [NumPlatforms] is the number of flags. *)
Theorem Platforms_within_NumPlatforms (platforms : list Platform) :
  0 <= flagsOf Platform_value platforms < 2 ^ NumPlatforms
  /\ flagsOf Platform_value all_platforms = 2 ^ NumPlatforms - 1
  /\ Z.of_nat (List.length all_platforms) = NumPlatforms.
Proof.
  split; [|split; reflexivity].
  apply (flagsOf_below Platform Platform_bit GemInfoFacts.Platform_bit_nonneg).
  - discriminate.
  - intros p. destruct p; reflexivity.
Qed.

(** X3: a [Types] value built by or-ing type enumerators holds exactly
    the types it was built from, and lies in the low [NumTypes] bits,
    which the three flags together fill. *)
Theorem Types_hold_their_flags (types : list GemType) (t : GemType) :
  (testFlag (flagsOf GemType_value types) (GemType_value t) = true
   <-> In t types)
  /\ 0 <= flagsOf GemType_value types < 2 ^ NumTypes
  /\ flagsOf GemType_value all_types = 2 ^ NumTypes - 1.
Proof.
  rewrite (flagsOf_ext _ GemType_value _ types GemType_value_bit).
  rewrite GemType_value_bit.
  split; [|split; [|reflexivity]].
  - exact (testFlag_flagsOf GemType GemType_bit GemType_bit_nonneg
             GemType_bit_inj types t).
  - apply (flagsOf_below GemType GemType_bit GemType_bit_nonneg).
    + discriminate.
    + intros s. destruct s; reflexivity.
Qed.

(** X4: a [GemOrigins] value built by or-ing origin enumerators holds
    exactly the origins it was built from, and lies in the low
    [NumGemOrigins] bits, which the three flags together fill. *)
Theorem GemOrigins_hold_their_flags (origins : list GemOrigin) (o : GemOrigin) :
  (testFlag (flagsOf GemOrigin_value origins) (GemOrigin_value o) = true
   <-> In o origins)
  /\ 0 <= flagsOf GemOrigin_value origins < 2 ^ NumGemOrigins
  /\ flagsOf GemOrigin_value all_origins = 2 ^ NumGemOrigins - 1.
Proof.
  rewrite (flagsOf_ext _ GemOrigin_value _ origins GemOrigin_value_bit).
  rewrite GemOrigin_value_bit.
  split; [|split; [|reflexivity]].
  - exact (testFlag_flagsOf GemOrigin GemOrigin_bit GemOrigin_bit_nonneg
             GemOrigin_bit_inj origins o).
  - apply (flagsOf_below GemOrigin GemOrigin_bit GemOrigin_bit_nonneg).
    + discriminate.
    + intros q. destruct q; reflexivity.
Qed.

(** The count enumerator is no flag: as a flag value it is [Android]
    and [Linux] together. *)
Example NumPlatforms_is_Android_and_Linux :
  NumPlatforms = flagsOf Platform_value [Android; Linux]
  /\ testFlag (flagsOf Platform_value [Linux; Android; Windows]) NumPlatforms = true.
Proof. split; reflexivity. Qed.

(** A default-constructed record has no platform and no type. *)
Example GemInfo_default_no_flags :
  m_platforms GemInfo_default = flagsOf Platform_value []
  /\ m_types GemInfo_default = flagsOf GemType_value [].
Proof. split; reflexivity. Qed.

End FlagsFacts.


(* ===================================================================== *)
(** ** Further properties of the repository-add dialog                    *)
(* ===================================================================== *)

Module GemRepoSessionFacts.
Import Json GemRepo GemRepoSession.

Lemma perform_model (a : UserAction) (d : GemRepoAddDialog) (which : RepoList) :
  modelOf which (perform a d) = modelOf which d.
Proof.
  destruct a as [row | row | s]; destruct which; cbn [perform];
    try reflexivity.
  all: match goal with |- context [(?r <? ?n)%nat] => destruct (r <? n)%nat end;
    try reflexivity; unfold clickCurated, clickUncurated;
    match goal with |- context [isSelected ?r ?v] => destruct (isSelected r v) end;
    reflexivity.
Qed.

Lemma performAll_model (actions : list UserAction) (d : GemRepoAddDialog)
    (which : RepoList) :
  modelOf which (performAll actions d) = modelOf which d.
Proof.
  unfold performAll. revert d.
  induction actions as [|a actions IH]; intros d; simpl; [reflexivity|].
  rewrite IH. apply perform_model.
Qed.

Lemma other_involutive (which : RepoList) : other (other which) = which.
Proof. destruct which; reflexivity. Qed.

(** What a click on a row does to the two views, whether or not it
    changes the selection. *)
Lemma select_views (d : GemRepoAddDialog) (which : RepoList) (row : nat)
    (item : QStandardItem) :
  nth_error (modelOf which d) row = Some item ->
  viewOf which (perform (select which row) d)
    = {| currentIndex := Some row; selectedRow := Some row |}
  /\ viewOf (other which) (perform (select which row) d)
     = viewOf (other which) d.
Proof.
  intros Hrow.
  assert (Hlt : (row <? List.length (modelOf which d))%nat = true).
  { apply Nat.ltb_lt, nth_error_Some. rewrite Hrow. discriminate. }
  destruct which; cbn [select perform modelOf] in *; rewrite Hlt;
    unfold clickCurated, clickUncurated;
    match goal with |- context [isSelected ?r ?v] => destruct (isSelected r v) end;
    split; reflexivity.
Qed.

(** What a change of selection does to the path field. *)
Lemma select_path (d : GemRepoAddDialog) (which : RepoList) (row : nat)
    (item : QStandardItem) :
  nth_error (modelOf which d) row = Some item ->
  selectedRow (viewOf which d) <> Some row ->
  GetRepoPath (perform (select which row) d) = itemText item.
Proof.
  intros Hrow Hnew.
  assert (Hlt : (row <? List.length (modelOf which d))%nat = true).
  { apply Nat.ltb_lt, nth_error_Some. rewrite Hrow. discriminate. }
  apply GemRepoFacts.isSelected_false in Hnew.
  destruct which; cbn [select perform modelOf viewOf] in *; rewrite Hlt;
    unfold clickCurated, clickUncurated; rewrite Hnew;
    unfold onCuratedSelectionChanged, onUncuratedSelectionChanged,
      GetRepoPath, displayText;
    cbn; rewrite Hrow; reflexivity.
Qed.

Lemma displayText_entry (model : QStandardItemModel) (row : nat) :
  (row < List.length model)%nat ->
  In (displayText model (Some row)) (entries model).
Proof.
  intros Hlt. unfold displayText, entries.
  destruct (nth_error model row) as [item|] eqn:E.
  - apply in_map. eapply nth_error_In, E.
  - apply nth_error_None in E. lia.
Qed.

Lemma perform_pathFrom (a : UserAction) (typed : list string)
    (d : GemRepoAddDialog) :
  pathFrom typed d -> pathFrom (typed ++ typedTexts [a]) (perform a d).
Proof.
  unfold pathFrom. intros H.
  destruct a as [row | row | s]; cbn [perform typedTexts].
  - destruct (Nat.ltb_spec row (List.length (m_curatedReposModel d))) as [Hlt | Hge].
    + unfold clickCurated. destruct (isSelected row (m_curatedRepos d)).
      * rewrite app_nil_r. exact H.
      * right. right. left. cbn. apply displayText_entry, Hlt.
    + rewrite app_nil_r. exact H.
  - destruct (Nat.ltb_spec row (List.length (m_uncuratedReposModel d))) as [Hlt | Hge].
    + unfold clickUncurated. destruct (isSelected row (m_uncuratedRepos d)).
      * rewrite app_nil_r. exact H.
      * right. right. right. cbn. apply displayText_entry, Hlt.
    + rewrite app_nil_r. exact H.
  - right. left. cbn. apply in_or_app. right. left. reflexivity.
Qed.

Lemma pathFrom_more (typed more : list string) (d : GemRepoAddDialog) :
  pathFrom typed d -> pathFrom (typed ++ more) d.
Proof.
  unfold pathFrom. intros [H | [H | H]]; [left; exact H | | right; right; exact H].
  right. left. apply in_or_app. left. exact H.
Qed.

Lemma typedTexts_cons (a : UserAction) (actions : list UserAction) :
  typedTexts (a :: actions) = (typedTexts [a] ++ typedTexts actions)%list.
Proof. destruct a; reflexivity. Qed.

Lemma performAll_pathFrom (actions : list UserAction) (typed : list string)
    (d : GemRepoAddDialog) :
  pathFrom typed d ->
  pathFrom (typed ++ typedTexts actions) (performAll actions d).
Proof.
  unfold performAll. revert typed d.
  induction actions as [|a actions IH]; intros typed d H.
  - simpl. rewrite app_nil_r. exact H.
  - cbn [fold_left]. rewrite typedTexts_cons, app_assoc.
    apply IH, perform_pathFrom, H.
Qed.

Section Constructed.
Variable GetCacheFile : string -> string.
Variable fromJson : QByteArray -> QJsonDocument.

Local Abbreviation build := (GemRepoAddDialog_new GetCacheFile fromJson).


(** X6: each list is read from its own cache file and from nothing else:
    two file systems that agree on that file give the same list. *)
Theorem list_depends_on_own_file (fs fs' : FileSystem) (which : RepoList) :
  fs (GetCacheFile (url which)) = fs' (GetCacheFile (url which)) ->
  modelOf which (build fs) = modelOf which (build fs').
Proof.
  intros Hsame. rewrite !GemRepoFacts.modelOf_new.
  unfold loadRepos, open. rewrite Hsame. reflexivity.
Qed.

(** X9: after any sequence of user actions on a freshly built dialog, the
    path field is empty, or holds a text the user typed, or holds the text
    of an entry of one of the two lists. *)
Theorem path_comes_from_user_or_lists (fs : FileSystem)
    (actions : list UserAction) :
  pathFrom (typedTexts actions) (performAll actions (build fs)).
Proof.
  apply (performAll_pathFrom actions [] (build fs)).
  left. reflexivity.
Qed.

(** X10: on a freshly built dialog, selecting row [row] of a list puts
    in the path field the string value of element [row] of the file's
    array: the element itself when it is a string, the empty text when it
    is anything else. *)
Theorem selecting_row_gives_element (fs : FileSystem) (which : RepoList)
    (contents : QByteArray) (o : QJsonObject) (repos : QJsonArray)
    (row : nat) (v : QJsonValue) :
  fs (GetCacheFile (url which)) = Readable contents ->
  fromJson contents = ObjectDocument o ->
  contains o (key which) = true ->
  value o (key which) = JArray repos ->
  nth_error repos row = Some v ->
  GetRepoPath (perform (select which row) (build fs)) = toString v.
Proof.
  intros Hfile Hdoc Hhas Hval Hrow.
  assert (Hmodel : modelOf which (build fs)
                   = map (fun v => mkItem (toString v)) repos).
  { rewrite GemRepoFacts.modelOf_new.
    apply (GemRepoFacts.load_array _ _ _ _ _ contents o repos
             Hfile Hdoc Hhas Hval). }
  assert (Hitem : nth_error (modelOf which (build fs)) row
                  = Some (mkItem (toString v))).
  { rewrite Hmodel, nth_error_map, Hrow. reflexivity. }
  rewrite (select_path (build fs) which row (mkItem (toString v)) Hitem).
  - reflexivity.
  - destruct which; discriminate.
Qed.

End Constructed.

(** The second row of the sample's uncurated list comes from the
    number 7: selecting it empties the path field. *)
Lemma selecting_row_gives_element_sample :
  GetRepoPath (perform (SelectUncurated 1) sampleDialog) = "".
Proof.
  exact (selecting_row_gives_element
           sampleCacheFile JsonReader.fromJson sampleFiles Uncurated
           _ [("uncurated",
               JArray [JString "u1"; JDouble "7"; JNull;
                       JObject [("k", JArray [])]; JString "u2";
                       JBool true])]
           _ 1%nat (JDouble "7") eq_refl eq_refl eq_refl eq_refl eq_refl).
Defined.

(** A file system with the sample's uncurated file and no curated file
    gives the uncurated list of the sample. *)
Lemma list_depends_on_own_file_sample :
  let fs' := files [ (sampleCacheFile uncurated_url,
                      sampleFiles (sampleCacheFile uncurated_url)) ] in
  m_uncuratedReposModel sampleDialog
  = m_uncuratedReposModel
      (GemRepoAddDialog_new sampleCacheFile JsonReader.fromJson fs').
Proof.
  exact (list_depends_on_own_file
           sampleCacheFile JsonReader.fromJson sampleFiles
           (files [ (sampleCacheFile uncurated_url,
                     sampleFiles (sampleCacheFile uncurated_url)) ])
           Uncurated eq_refl).
Defined.

(** X7: no sequence of user actions changes the rows of either list. *)
Theorem lists_are_read_only (actions : list UserAction) (d : GemRepoAddDialog) :
  m_curatedReposModel (performAll actions d) = m_curatedReposModel d
  /\ m_uncuratedReposModel (performAll actions d) = m_uncuratedReposModel d.
Proof.
  split.
  - exact (performAll_model actions d Curated).
  - exact (performAll_model actions d Uncurated).
Qed.

(** X11: after an entry is selected in one list and then, in the other
    list, an entry that is not selected there already, both lists have
    their entry selected, and the path field holds the text of the entry
    selected last. *)
Theorem both_lists_keep_their_selection (d : GemRepoAddDialog)
    (which : RepoList) (row row' : nat) (item item' : QStandardItem) :
  nth_error (modelOf which d) row = Some item ->
  nth_error (modelOf (other which) d) row' = Some item' ->
  selectedRow (viewOf (other which) d) <> Some row' ->
  let d' := performAll [select which row; select (other which) row'] d in
  GetRepoPath d' = itemText item'
  /\ selectedRow (viewOf which d') = Some row
  /\ selectedRow (viewOf (other which) d') = Some row'.
Proof.
  intros Hrow Hrow' Hnew d'.
  assert (Hd' : d' = perform (select (other which) row')
                       (perform (select which row) d)) by reflexivity.
  destruct (select_views d which row item Hrow) as [Hview Hkept].
  assert (Hrow1 : nth_error
                    (modelOf (other which) (perform (select which row) d)) row'
                  = Some item').
  { rewrite perform_model. exact Hrow'. }
  assert (Hnew1 : selectedRow
                    (viewOf (other which) (perform (select which row) d))
                  <> Some row').
  { rewrite Hkept. exact Hnew. }
  destruct (select_views _ (other which) row' item' Hrow1) as [Hview' Hkept'].
  rewrite other_involutive in Hkept'.
  rewrite Hd'. split; [|split].
  - exact (select_path _ (other which) row' item' Hrow1 Hnew1).
  - rewrite Hkept', Hview. reflexivity.
  - rewrite Hview'. reflexivity.
Qed.

Lemma both_lists_keep_their_selection_sample :
  let d' := performAll [SelectUncurated 4; SelectCurated 0] sampleDialog in
  GetRepoPath d' = "a"
  /\ selectedRow (m_uncuratedRepos d') = Some 4%nat
  /\ selectedRow (m_curatedRepos d') = Some 0%nat.
Proof.
  assert (Hnew : selectedRow (viewOf (other Uncurated) sampleDialog)
                 <> Some 0%nat) by (vm_compute; discriminate).
  exact (both_lists_keep_their_selection sampleDialog Uncurated 4 0
           (mkItem "u2") (mkItem "a") eq_refl eq_refl Hnew).
Defined.

End GemRepoSessionFacts.
